(** * Pastorate Hub API: a shallow embedding of [main.py]

    The module serves an in-memory catalog of locations over five GET
    routes.  The embedding follows the source: pydantic models are
    records, module-level lists are the fields of a record of globals
    that every handler receives and hands back, [raise] is the [Raise]
    outcome of a small state-and-exception monad, the [response] dict of
    the diagnostic probe is a finite map from keys to Python values. *)

From stdpp Require Import base option list strings gmap.
From Stdlib Require Import NArith ZArith Ascii String Lia.

Local Open Scope Z_scope.
Local Open Scope string_scope.
Local Open Scope list_scope.

(** ** Python strings

    A Python [str] is a sequence of Unicode code points; [len] and
    slicing count code points, not bytes.  Literals are written as in
    the source and decoded from the UTF-8 bytes of the Rocq string. *)

Module Py.

Definition str : Type := list N.

Definition bytes_of (s : string) : list N :=
  map N_of_ascii (list_ascii_of_string s).

(** Payload bits of a continuation byte [10xxxxxx]. *)
Definition cont (b : N) : N := N.land b 63.

Fixpoint utf8_decode (bs : list N) : str :=
  match bs with
  | [] => []
  | b0 :: r0 =>
    if (b0 <? 128)%N then b0 :: utf8_decode r0
    else match r0 with
    | [] => []
    | b1 :: r1 =>
      if (b0 <? 224)%N
      then (N.shiftl (N.land b0 31) 6 + cont b1)%N :: utf8_decode r1
      else match r1 with
      | [] => []
      | b2 :: r2 =>
        if (b0 <? 240)%N
        then (N.shiftl (N.land b0 15) 12 + N.shiftl (cont b1) 6
              + cont b2)%N :: utf8_decode r2
        else match r2 with
        | [] => []
        | b3 :: r3 =>
          (N.shiftl (N.land b0 7) 18 + N.shiftl (cont b1) 12
           + N.shiftl (cont b2) 6 + cont b3)%N :: utf8_decode r3
        end
      end
    end
  end.

(** A string literal of the source. *)
Definition lit (s : string) : str := utf8_decode (bytes_of s).

(** [bool(s)] for a string: the empty string is falsy. *)
Definition truthy (s : str) : bool :=
  match s with [] => false | _ :: _ => true end.

(** [s[:n]] for [n >= 0], on strings and on lists. *)
Definition slice_to {A} (n : nat) (l : list A) : list A := take n l.

(** [a == b] on strings. *)
Definition eqb (a b : str) : bool := bool_decide (a = b).

(** The values the probe stores in its response dict. *)
Inductive value : Type :=
| VNone
| VStr (s : str)
| VList (l : list str).

End Py.

(** ** An outcome is a returned value or a raised exception; a
    computation threads a state of type [St] and keeps the state reached
    when an exception is raised, as assignments made before a [raise]
    stay visible to the handler. *)

Inductive outcome (E A : Type) : Type :=
| Return (a : A)
| Raise (e : E).
Arguments Return {E A} a.
Arguments Raise {E A} e.

Definition M (St E A : Type) : Type := St -> outcome E A * St.

Section Monad.
Context {St E : Type}.

Definition ret {A} (a : A) : M St E A := fun s => (Return a, s).

Definition raise {A} (e : E) : M St E A := fun s => (Raise e, s).

Definition bind {A B} (m : M St E A) (k : A -> M St E B) : M St E B :=
  fun s =>
    match m s with
    | (Return a, s') => k a s'
    | (Raise e, s') => (Raise e, s')
    end.

Definition get : M St E St := fun s => (Return s, s).

Definition modify (f : St -> St) : M St E unit :=
  fun s => (Return tt, f s).

(** The result of an expression that may raise. *)
Definition eval {A} (o : outcome E A) : M St E A := fun s => (o, s).

(** [try: body  except c1 as e: h1  except c2 as e: h2 ...]: the first
    clause whose class test accepts the exception runs; an exception
    no clause accepts, or one raised by a handler, propagates. *)
Definition try_except {A} (body : M St E A)
    (clauses : list ((E -> bool) * (E -> M St E A))) : M St E A :=
  fun s =>
    match body s with
    | (Return a, s') => (Return a, s')
    | (Raise e, s') =>
      match List.find (fun c => fst c e) clauses with
      | Some c => snd c e s'
      | None => (Raise e, s')
      end
    end.
End Monad.

(** A function body with a local variable of type [L], started at [l0];
    the caller's state is not touched by the local assignments. *)
Definition with_local {G L E A} (l0 : L) (m : M L E A) : M G E A :=
  fun g => (fst (m l0), g).

Notation "x <- m ;; k" := (bind m (fun x => k))
  (at level 60, m at next level, right associativity).
Notation "m ;;; k" := (bind m (fun _ => k))
  (at level 60, right associativity).

(** [n] calls of [h], one after the other, with the values returned. *)
Fixpoint call_n {St E A} (n : nat) (h : M St E A) : M St E (list A) :=
  match n with
  | O => ret []
  | S n' => a <- h ;; r <- call_n n' h ;; ret (a :: r)
  end.

(** ** Models (lines 18-52) *)

Record Leader : Type := mkLeader {
  Leader_name : Py.str;
  Leader_role : Py.str;
  Leader_photo : option Py.str
}.

Record NewsItem : Type := mkNewsItem {
  NewsItem_id : Z;
  NewsItem_title : Py.str;
  NewsItem_excerpt : Py.str;
  NewsItem_date : Py.str;
  NewsItem_url : Py.str
}.

Record GalleryImage : Type := mkGalleryImage {
  GalleryImage_src : Py.str;
  GalleryImage_alt : Py.str
}.

Record Location : Type := mkLocation {
  slug : Py.str;
  name : Py.str;
  address : Py.str;
  service_times : list Py.str;
  phone : option Py.str;
  email : option Py.str;
  hero_tagline : option Py.str
}.

Record LocationDetail : Type := mkLocationDetail {
  location : Location;
  leadership : list Leader;
  news : list NewsItem;
  gallery : list GalleryImage
}.

(** ** Demo data (lines 55-91) *)

Import Py.

Definition LOCATIONS : list Location := [
  mkLocation (lit "central-campus") (lit "Central Congregation")
    (lit "100 Main St, Cityville")
    [lit "Sundays 9:00 AM"; lit "Sundays 11:00 AM"]
    (Some (lit "(555) 123-0001")) (Some (lit "central@example.org"))
    (Some (lit "A welcoming community in the heart of the city."));
  mkLocation (lit "north-campus") (lit "North Congregation")
    (lit "200 North Rd") [lit "Sundays 10:00 AM"]
    (Some (lit "(555) 123-0002")) (Some (lit "north@example.org"))
    (Some (lit "Growing together in faith."));
  mkLocation (lit "south-campus") (lit "South Congregation")
    (lit "300 South Ave") [lit "Sundays 10:30 AM"]
    (Some (lit "(555) 123-0003")) (Some (lit "south@example.org"))
    (Some (lit "Serving with joy."));
  mkLocation (lit "east-campus") (lit "East Congregation")
    (lit "400 East Blvd") [lit "Sundays 9:30 AM"]
    (Some (lit "(555) 123-0004")) (Some (lit "east@example.org"))
    (Some (lit "Hope for every home."));
  mkLocation (lit "west-campus") (lit "West Congregation")
    (lit "500 West Way") [lit "Sundays 11:15 AM"]
    (Some (lit "(555) 123-0005")) (Some (lit "west@example.org"))
    (Some (lit "Rooted and reaching."));
  mkLocation (lit "riverside-campus") (lit "Riverside Congregation")
    (lit "600 River Rd") [lit "Sundays 9:00 AM"]
    (Some (lit "(555) 123-0006")) (Some (lit "riverside@example.org"))
    (Some (lit "Life by the water."));
  mkLocation (lit "hillside-campus") (lit "Hillside Congregation")
    (lit "700 Hill St") [lit "Sundays 10:00 AM"]
    (Some (lit "(555) 123-0007")) (Some (lit "hillside@example.org"))
    (Some (lit "Lifted by grace."))
].

Definition DEMO_LEADERS : list Leader := [
  mkLeader (lit "Alex Morgan") (lit "Lead Pastor")
    (Some (lit "https://images.unsplash.com/photo-1544006659-f0b21884ce1d?q=80&w=800&auto=format&fit=crop"));
  mkLeader (lit "Jordan Lee") (lit "Associate Pastor")
    (Some (lit "https://images.unsplash.com/photo-1547425260-76bcadfb4f2c?q=80&w=800&auto=format&fit=crop"));
  mkLeader (lit "Taylor Kim") (lit "Worship Director")
    (Some (lit "https://images.unsplash.com/photo-1527980965255-d3b416303d12?q=80&w=800&auto=format&fit=crop"));
  mkLeader (lit "Riley Chen") (lit "Next Gen Lead")
    (Some (lit "https://images.unsplash.com/photo-1544006658-85f8d80b2983?q=80&w=800&auto=format&fit=crop"))
].

Definition DEMO_NEWS : list NewsItem := [
  mkNewsItem 1 (lit "Pastorate Vision Night")
    (lit "Join us as we share the vision for the coming year.")
    (lit "2025-01-15") (lit "https://example.org/news/vision-night");
  mkNewsItem 2 (lit "Community Serve Day")
    (lit "City-wide outreach across all locations.")
    (lit "2025-02-01") (lit "https://example.org/news/serve-day")
].

Definition DEMO_GALLERY : list GalleryImage := [
  mkGalleryImage
    (lit "https://images.unsplash.com/photo-1488521787991-ed7bbaae773c?q=80&w=1200&auto=format&fit=crop")
    (lit "Gathering");
  mkGalleryImage
    (lit "https://images.unsplash.com/photo-1520975682031-a3ee3e3c7b80?q=80&w=1200&auto=format&fit=crop")
    (lit "Worship");
  mkGalleryImage
    (lit "https://images.unsplash.com/photo-1470225620780-dba8ba36b745?q=80&w=1200&auto=format&fit=crop")
    (lit "Community")
].

(** The module-level names a handler can reach.  Python lists are
    mutable objects, so the catalog is part of the state each handler is
    given and gives back. *)
Record Globals : Type := mkGlobals {
  g_LOCATIONS : list Location;
  g_DEMO_LEADERS : list Leader;
  g_DEMO_NEWS : list NewsItem;
  g_DEMO_GALLERY : list GalleryImage
}.

(** The state after the module body has run. *)
Definition startup : Globals :=
  mkGlobals LOCATIONS DEMO_LEADERS DEMO_NEWS DEMO_GALLERY.

(** ** Routes (lines 94-116) *)

(** [fastapi.HTTPException(status_code=..., detail=...)]. *)
Record HTTPException : Type := mkHTTPException {
  status_code : Z;
  detail : Py.str
}.

Definition handler (A : Type) : Type := M Globals HTTPException A.

Definition read_root : handler (list (string * Py.str)) :=
  ret [("message", lit "Hello from FastAPI Backend!")].

Definition hello : handler (list (string * Py.str)) :=
  ret [("message", lit "Hello from the backend API!")].

Definition list_locations : handler (list Location) :=
  g <- get ;;
  ret (g_LOCATIONS g).

(** [next((l for l in LOCATIONS if l.slug == slug), None)]: the first
    element of the catalog, in list order, whose slug equals [slug]. *)
Definition first_match (slug0 : Py.str) (ls : list Location)
  : option Location :=
  List.find (fun l => Py.eqb (slug l) slug0) ls.

(** A [Location] instance is truthy (a pydantic model defines neither
    [__bool__] nor [__len__]), so [not loc] holds exactly for [None]. *)
Definition get_location (slug0 : Py.str) : handler LocationDetail :=
  g <- get ;;
  match first_match slug0 (g_LOCATIONS g) with
  | None => raise (mkHTTPException 404 (lit "Location not found"))
  | Some loc =>
    ret (mkLocationDetail loc (g_DEMO_LEADERS g) (g_DEMO_NEWS g)
           (g_DEMO_GALLERY g))
  end.

(** What the framework sends for a handler's outcome: status 200 with
    the returned value as body, or, for an [HTTPException], its status
    code with the body [{"detail": detail}]. *)
Inductive body (A : Type) : Type :=
| Payload (a : A)
| Detail (d : Py.str).
Arguments Payload {A} a.
Arguments Detail {A} d.

Definition respond {E A} (on_error : E -> Z * body A) (o : outcome E A)
  : Z * body A :=
  match o with
  | Return a => (200, Payload a)
  | Raise e => on_error e
  end.

Definition http_exception_handler {A} (e : HTTPException) : Z * body A :=
  (status_code e, Detail (detail e)).


(** [GET path] served by [h] in state [g]: the response and the state
    the process is left in. *)
Definition serve {E A} (on_error : E -> Z * body A) (h : M Globals E A)
    (g : Globals) : (Z * body A) * Globals :=
  (respond on_error (fst (h g)), snd (h g)).

(** ** The diagnostic probe (lines 119-156) *)

(** The exception classes the probe's [except] clauses tell apart.
    [ModuleNotFoundError] derives from [ImportError]; every class but
    [KeyboardInterrupt] and [SystemExit] derives from [Exception]. *)
Inductive exc_class : Type :=
| ImportError
| ModuleNotFoundError
| AttributeError
| OtherException
| KeyboardInterrupt
| SystemExit.

(** A raised exception: its class and the text [str(e)] gives for it. *)
Record exception : Type := mkException {
  exc_class_of : exc_class;
  exc_str : Py.str
}.

Definition isinstance_ImportError (e : exception) : bool :=
  match exc_class_of e with
  | ImportError | ModuleNotFoundError => true
  | _ => false
  end.

Definition isinstance_AttributeError (e : exception) : bool :=
  match exc_class_of e with
  | AttributeError => true
  | _ => false
  end.

Definition isinstance_Exception (e : exception) : bool :=
  match exc_class_of e with
  | KeyboardInterrupt | SystemExit => false
  | _ => true
  end.

(** The optional collaborator: the [db] object of module [database].
    Reading [db.name] gives a value or raises; calling
    [db.list_collection_names()] gives the names or raises. *)
Record Database : Type := mkDatabase {
  db_name : outcome exception Py.value;
  list_collection_names : outcome exception (list Py.str)
}.

(** What the probe finds around it: the result of
    [from database import db] ([db] may be [None]) and [os.environ]. *)
Record Env : Type := mkEnv {
  import_db : outcome exception (option Database);
  environ : gmap Py.str Py.str
}.

(** [hasattr(obj, attr)]: true when the read succeeds, false when it
    raises [AttributeError]; any other exception passes through. *)
Definition hasattr {A} (read : outcome exception A) : outcome exception bool :=
  match read with
  | Return _ => Return true
  | Raise e => if isinstance_AttributeError e then Return false else Raise e
  end.

Definition getenv (env : Env) (key : Py.str) : option Py.str :=
  environ env !! key.

(** Truth value of what [os.getenv] returns: [None] and the empty
    string are falsy. *)
Definition truthy_opt (o : option Py.str) : bool :=
  match o with
  | None => false
  | Some s => truthy s
  end.

(** The [response] dict: keys to values. *)
Abbreviation Response := (gmap string Py.value).

(** [response[key] = v]. *)
Definition setitem (key : string) (v : Py.value) : M Response exception unit :=
  modify (insert key v).

(** The dict literal of lines 122-129. *)
Definition response0 : Response :=
  list_to_map [
    ("backend", VStr (lit "✅ Running"));
    ("database", VStr (lit "❌ Not Available"));
    ("database_url", VNone);
    ("database_name", VNone);
    ("connection_status", VStr (lit "Not Connected"));
    ("collections", VList [])
  ].

(** The [try] statement of lines 131-151. *)
Definition probe (env : Env) : M Response exception unit :=
  try_except
    (db <- eval (import_db env) ;;
     match db with
     | Some db =>
       setitem "database" (VStr (lit "✅ Available")) ;;;
       setitem "database_url" (VStr (lit "✅ Configured")) ;;;
       has <- eval (hasattr (db_name db)) ;;
       nm <- (if has : bool then eval (db_name db)
              else ret (VStr (lit "✅ Connected"))) ;;
       setitem "database_name" nm ;;;
       setitem "connection_status" (VStr (lit "Connected")) ;;;
       try_except
         (collections <- eval (list_collection_names db) ;;
          setitem "collections" (VList (slice_to 10 collections)) ;;;
          setitem "database" (VStr (lit "✅ Connected & Working")))
         [(isinstance_Exception, fun e =>
             setitem "database"
               (VStr (lit "⚠️  Connected but Error: "
                      ++ slice_to 50 (exc_str e))))]
     | None =>
       setitem "database" (VStr (lit "⚠️  Available but not initialized"))
     end)
    [(isinstance_ImportError, fun _ =>
        setitem "database"
          (VStr (lit "❌ Database module not found (run enable-database first)")));
     (isinstance_Exception, fun e =>
        setitem "database"
          (VStr (lit "❌ Error: " ++ slice_to 50 (exc_str e))))].

(** ["✅ Set" if os.getenv(key) else "❌ Not Set"]. *)
Definition set_or_not (env : Env) (key : Py.str) : Py.value :=
  VStr (if truthy_opt (getenv env key) then lit "✅ Set"
        else lit "❌ Not Set").

Definition test_database (env : Env) : M Globals exception Response :=
  with_local response0
    (probe env ;;;
     setitem "database_url" (set_or_not env (lit "DATABASE_URL")) ;;;
     setitem "database_name" (set_or_not env (lit "DATABASE_NAME")) ;;;
     get).

(** Lines 153-154 as a function of the dict built so far. *)
Definition env_report (env : Env) (r : Response) : Response :=
  <["database_name" := set_or_not env (lit "DATABASE_NAME")]>
    (<["database_url" := set_or_not env (lit "DATABASE_URL")]> r).

(** ** The process: a sequence of requests served from [startup] *)

Inductive request : Type :=
| GET_root
| GET_api_hello
| GET_api_locations
| GET_api_location (slug0 : Py.str)
| GET_test (env : Env).

(** The state of the process after one request. *)
Definition after (g : Globals) (rq : request) : Globals :=
  match rq with
  | GET_root => snd (read_root g)
  | GET_api_hello => snd (hello g)
  | GET_api_locations => snd (list_locations g)
  | GET_api_location s => snd (get_location s g)
  | GET_test env => snd (test_database env g)
  end.

Definition after_all (rqs : list request) (g : Globals) : Globals :=
  foldl after g rqs.

(** Every exception the environment can raise is an instance of
    [Exception]. *)
Definition is_error {A} (o : outcome exception A) : bool :=
  match o with
  | Return _ => true
  | Raise e => isinstance_Exception e
  end.

Definition errors_only (env : Env) : bool :=
  match import_db env with
  | Return (Some db) =>
    is_error (db_name db) && is_error (list_collection_names db)
  | other => is_error other
  end.

(** The variable is in [os.environ] with a non-empty value. *)
Definition set_nonempty (env : Env) (key : Py.str) : Prop :=
  exists s, environ env !! key = Some s /\ s <> [].

(** What the outer [except] clauses of the probe make of an exception:
    the text stored under ["database"], or nothing when no clause takes
    it. *)
Definition outer_except (e : exception) : option Py.str :=
  if isinstance_ImportError e
  then Some (lit "❌ Database module not found (run enable-database first)")
  else if isinstance_Exception e
  then Some (lit "❌ Error: " ++ slice_to 50 (exc_str e))
  else None.

(** The ["database"] and ["collections"] entries the probe ends with,
    by the path taken through lines 131-151, or the exception that
    leaves the function; [test_database_diagnosis] proves it of
    [test_database]. *)
Definition diagnosis (i : outcome exception (option Database))
  : outcome exception (Py.str * list Py.str) :=
  match i with
  | Raise e =>
    match outer_except e with
    | Some s => Return (s, [])
    | None => Raise e
    end
  | Return None => Return (lit "⚠️  Available but not initialized", [])
  | Return (Some db) =>
    match hasattr (db_name db) with
    | Raise e =>
      match outer_except e with
      | Some s => Return (s, [])
      | None => Raise e
      end
    | Return _ =>
      match list_collection_names db with
      | Return cols =>
        Return (lit "✅ Connected & Working", slice_to 10 cols)
      | Raise e =>
        if isinstance_Exception e
        then Return (lit "⚠️  Connected but Error: "
                     ++ slice_to 50 (exc_str e), [])
        else Raise e
      end
    end
  end.

(** The response of the probe, entry by entry. *)
Definition answers (env : Env) (g : Globals) (r : Response)
    (s : Py.str) (cols : list Py.str) : Prop :=
  test_database env g = (Return r, g) /\
  r !! "database" = Some (VStr s) /\
  r !! "collections" = Some (VList cols) /\
  r !! "database_url" = Some (set_or_not env (lit "DATABASE_URL")) /\
  r !! "database_name" = Some (set_or_not env (lit "DATABASE_NAME")).

(** ** Sample environments *)

Definition no_module : exception :=
  mkException ModuleNotFoundError (lit "No module named 'database'").


(** [DATABASE_URL] is in the environment with an empty value. *)
Definition env_url_empty : Env :=
  mkEnv (Raise no_module) {[ lit "DATABASE_URL" := [] ]}.

(** [DATABASE_URL] is in the environment with a value. *)
Definition env_url_given : Env :=
  mkEnv (Raise no_module)
    {[ lit "DATABASE_URL" := lit "mongodb://localhost:27017" ]}.

(** A live connection with twelve collections. *)
Definition db_live : Database :=
  mkDatabase (Return (VStr (lit "pastorate")))
    (Return [lit "c01"; lit "c02"; lit "c03"; lit "c04"; lit "c05";
             lit "c06"; lit "c07"; lit "c08"; lit "c09"; lit "c10";
             lit "c11"; lit "c12"]).

Definition env_live : Env :=
  mkEnv (Return (Some db_live))
    {[ lit "DATABASE_URL" := lit "mongodb://localhost:27017" ]}.

(** A connection whose query fails with a message of 68 characters. *)
Definition refused : exception :=
  mkException OtherException
    (lit "localhost:27017: [Errno 111] Connection refused, Timeout: 30s, done.").

Definition db_failing : Database :=
  mkDatabase (Return (VStr (lit "pastorate"))) (Raise refused).

Definition env_failing : Env := mkEnv (Return (Some db_failing)) ∅.

(** ** What the probe answers, entry by entry *)

(** The keys of the dict literal of lines 122-129. *)
Definition response_keys : gset string :=
  {[ "backend"; "database"; "database_url"; "database_name";
     "connection_status"; "collections" ]}.

(** Line 138 is reached: [db] is not [None] and [hasattr(db, 'name')]
    gave an answer. *)
Definition connected (i : outcome exception (option Database)) : bool :=
  match i with
  | Return (Some db) =>
    match hasattr (db_name db) with
    | Return _ => true
    | Raise _ => false
    end
  | _ => false
  end.

(** A step of the probe leaves the set of keys of [response] as the
    dict literal has it. *)
Definition keeps_keys {A} (m : M Response exception A) : Prop :=
  forall s : Response,
    dom s = response_keys -> dom (snd (m s)) = response_keys.

(** A catalog in which two records share a slug. *)
Definition first_north : Location :=
  mkLocation (lit "north-campus") (lit "North Congregation")
    (lit "200 North Rd") [lit "Sundays 10:00 AM"] None None None.

Definition second_north : Location :=
  mkLocation (lit "north-campus") (lit "North Chapel")
    (lit "210 North Rd") [lit "Sundays 6:00 PM"] None None None.

Definition g_shadowed : Globals :=
  mkGlobals [first_north; second_north] DEMO_LEADERS DEMO_NEWS DEMO_GALLERY.

(** A handle whose [name] cannot be read: the read raises
    [ImportError]. *)
Definition driver_missing : exception :=
  mkException ImportError (lit "No module named 'pymongo'").

Definition env_name_unreadable : Env :=
  mkEnv (Return (Some (mkDatabase (Raise driver_missing) (Return [])))) ∅.

(** The import is interrupted by [SystemExit]. *)
Definition env_exit : Env :=
  mkEnv (Raise (mkException SystemExit (lit "1"))) ∅.

(** A live connection with two collections. *)
Definition env_small : Env :=
  mkEnv (Return (Some (mkDatabase (Return (VStr (lit "pastorate")))
                         (Return [lit "locations"; lit "news"])))) ∅.

(** The import fails with a short message. *)
Definition env_import_fails : Env :=
  mkEnv (Raise (mkException OtherException (lit "connection refused"))) ∅.

(** * Properties *)

(** ** Literals *)

Example lit_check_mark : lit "✅" = [9989%N].
Proof. reflexivity. Qed.

Example lit_cross_mark : lit "❌" = [10060%N].
Proof. reflexivity. Qed.

Example lit_warning_sign : lit "⚠️" = [9888%N; 65039%N].
Proof. reflexivity. Qed.

Example lit_ascii : lit "Set" = [83%N; 101%N; 116%N].
Proof. reflexivity. Qed.

(** ** The catalog lookup *)

Section Lookup.
Variable g : Globals.

Lemma first_match_sound s ls l :
  first_match s ls = Some l -> l ∈ ls /\ slug l = s.
Proof.
  unfold first_match. intros H.
  apply find_some in H as [Hin Heq].
  split.
  - now apply list_elem_of_In.
  - unfold Py.eqb in Heq. now apply bool_decide_eq_true in Heq.
Qed.

Lemma first_match_complete s ls :
  s ∈ map slug ls -> exists l, first_match s ls = Some l.
Proof.
  induction ls as [|l ls IH]; simpl; intros H.
  - inversion H.
  - unfold Py.eqb. destruct (bool_decide (slug l = s)) eqn:E.
    + now exists l.
    + apply bool_decide_eq_false in E.
      apply elem_of_cons in H as [H|H]; [congruence | auto].
Qed.

Lemma first_match_absent s ls :
  s ∉ map slug ls -> first_match s ls = None.
Proof.
  intros H. destruct (first_match s ls) as [l|] eqn:E; [|reflexivity].
  apply first_match_sound in E as [Hin <-].
  exfalso. apply H. now apply list_elem_of_fmap_2.
Qed.

Lemma get_location_found s :
  s ∈ map slug (g_LOCATIONS g) ->
  exists l, l ∈ g_LOCATIONS g /\ slug l = s /\
    get_location s g
    = (Return (mkLocationDetail l (g_DEMO_LEADERS g) (g_DEMO_NEWS g)
                 (g_DEMO_GALLERY g)), g).
Proof.
  intros H. destruct (first_match_complete _ _ H) as [l Hl].
  destruct (first_match_sound _ _ _ Hl) as [Hin Hs].
  exists l. repeat split; try assumption.
  unfold get_location, bind, get, ret. now rewrite Hl.
Qed.

Lemma get_location_missing s :
  s ∉ map slug (g_LOCATIONS g) ->
  get_location s g
  = (Raise (mkHTTPException 404 (lit "Location not found")), g).
Proof.
  intros H. unfold get_location, bind, get, raise.
  now rewrite (first_match_absent _ _ H).
Qed.
End Lookup.

Lemma known_slug_startup s :
  bool_decide (s ∈ map slug LOCATIONS) = true ->
  s ∈ map slug (g_LOCATIONS startup).
Proof. intros H. now apply bool_decide_eq_true in H. Qed.

(** C1. For every slug that is the slug of some Location of the catalog,
    [get_location] returns a LocationDetail (served with status 200)
    whose [location.slug] is the slug asked for. *)
Theorem get_location_known_slug (g : Globals) (s : Py.str) :
  s ∈ map slug (g_LOCATIONS g) ->
  exists d,
    get_location s g = (Return d, g) /\
    slug (location d) = s /\
    location d ∈ g_LOCATIONS g /\
    fst (serve http_exception_handler (get_location s) g)
    = (200, Payload d).
Proof.
  intros H. destruct (get_location_found g s H) as (l & Hin & Hs & Hrun).
  eexists. split; [exact Hrun|].
  unfold serve. rewrite Hrun. simpl. auto.
Qed.

Lemma get_location_known_slug_witness :
  (lit "north-campus" ∈ map slug (g_LOCATIONS startup)) /\
  exists d,
    get_location (lit "north-campus") startup = (Return d, startup) /\
    slug (location d) = lit "north-campus" /\
    location d ∈ g_LOCATIONS startup /\
    fst (serve http_exception_handler
           (get_location (lit "north-campus")) startup)
    = (200, Payload d).
Proof.
  assert (H : lit "north-campus" ∈ map slug (g_LOCATIONS startup))
    by (apply known_slug_startup; vm_compute; reflexivity).
  split; [exact H|].
  exact (get_location_known_slug startup (lit "north-campus") H).
Defined.

(** C2. For every slug that is the slug of no Location of the catalog,
    [get_location] raises [HTTPException] with status code 404 and
    detail "Location not found": no LocationDetail is returned, and the
    response has status 404 and that message in its body. *)
Theorem get_location_unknown_slug (g : Globals) (s : Py.str) :
  s ∉ map slug (g_LOCATIONS g) ->
  get_location s g
  = (Raise (mkHTTPException 404 (lit "Location not found")), g) /\
  (forall d, fst (get_location s g) <> Return d) /\
  fst (serve http_exception_handler (get_location s) g)
  = (404, Detail (lit "Location not found")).
Proof.
  intros H. pose proof (get_location_missing g s H) as Hrun.
  split; [exact Hrun|]. split.
  - intros d. rewrite Hrun. discriminate.
  - unfold serve. now rewrite Hrun.
Qed.

Lemma get_location_unknown_slug_witness :
  (lit "does-not-exist" ∉ map slug (g_LOCATIONS startup)) /\
  get_location (lit "does-not-exist") startup
  = (Raise (mkHTTPException 404 (lit "Location not found")), startup) /\
  (forall d, fst (get_location (lit "does-not-exist") startup) <> Return d) /\
  fst (serve http_exception_handler
         (get_location (lit "does-not-exist")) startup)
  = (404, Detail (lit "Location not found")).
Proof.
  assert (H : lit "does-not-exist" ∉ map slug (g_LOCATIONS startup)).
  { intros Hin. apply (bool_decide_pack _) in Hin.
    vm_compute in Hin. exact Hin. }
  split; [exact H|].
  exact (get_location_unknown_slug startup (lit "does-not-exist") H).
Defined.

(** ** Listing the catalog *)

Lemma list_locations_run (g : Globals) :
  list_locations g = (Return (g_LOCATIONS g), g).
Proof. reflexivity. Qed.

Lemma call_n_list_locations (n : nat) (g : Globals) :
  call_n n list_locations g = (Return (replicate n (g_LOCATIONS g)), g).
Proof.
  induction n as [|n IH]; simpl.
  - reflexivity.
  - unfold bind at 1. rewrite list_locations_run.
    unfold bind at 1. rewrite IH. reflexivity.
Qed.

Lemma after_same (g : Globals) (rq : request) : after g rq = g.
Proof.
  destruct rq as [| | |s|env]; simpl; try reflexivity.
  unfold get_location, bind, get.
  simpl. now destruct (first_match s (g_LOCATIONS g)).
Qed.

Lemma after_all_same (rqs : list request) (g : Globals) :
  after_all rqs g = g.
Proof.
  revert g. induction rqs as [|rq rqs IH]; intros g; simpl.
  - reflexivity.
  - unfold after_all in *. simpl. rewrite after_same. apply IH.
Qed.

(** C3. [list_locations] returns exactly the catalog, elements and
    order, on every call: whatever requests were served before, the
    call returns [LOCATIONS] (status 200) and leaves the state of the
    process as it was, and any number of calls in a row each return
    [LOCATIONS]. *)
Theorem list_locations_returns_catalog :
  (forall rqs,
     list_locations (after_all rqs startup) = (Return LOCATIONS, startup) /\
     fst (serve http_exception_handler list_locations
            (after_all rqs startup))
     = (200, Payload LOCATIONS)) /\
  (forall g, list_locations g = (Return (g_LOCATIONS g), g)) /\
  (forall n, call_n n list_locations startup
             = (Return (replicate n LOCATIONS), startup)) /\
  map slug LOCATIONS
  = [lit "central-campus"; lit "north-campus"; lit "south-campus";
     lit "east-campus"; lit "west-campus"; lit "riverside-campus";
     lit "hillside-campus"].
Proof.
  split; [|split; [|split]].
  - intros rqs. rewrite after_all_same. split; reflexivity.
  - apply list_locations_run.
  - intros n. apply (call_n_list_locations n startup).
  - reflexivity.
Qed.

(** ** The detail of a location *)

(** C4. For two slugs of the catalog, the details returned carry the
    same leadership, news and gallery lists: the demo collections,
    whatever the slug. *)
Theorem get_location_same_collections (g : Globals) (s1 s2 : Py.str) :
  s1 ∈ map slug (g_LOCATIONS g) ->
  s2 ∈ map slug (g_LOCATIONS g) ->
  exists d1 d2,
    get_location s1 g = (Return d1, g) /\
    get_location s2 g = (Return d2, g) /\
    leadership d1 = leadership d2 /\
    news d1 = news d2 /\
    gallery d1 = gallery d2 /\
    leadership d1 = g_DEMO_LEADERS g /\
    news d1 = g_DEMO_NEWS g /\
    gallery d1 = g_DEMO_GALLERY g.
Proof.
  intros H1 H2.
  destruct (get_location_found g s1 H1) as (l1 & _ & _ & R1).
  destruct (get_location_found g s2 H2) as (l2 & _ & _ & R2).
  do 2 eexists. split; [exact R1|]. split; [exact R2|].
  simpl. repeat split.
Qed.

Lemma get_location_same_collections_witness :
  (lit "east-campus" ∈ map slug (g_LOCATIONS startup)) /\
  (lit "hillside-campus" ∈ map slug (g_LOCATIONS startup)) /\
  exists d1 d2,
    get_location (lit "east-campus") startup = (Return d1, startup) /\
    get_location (lit "hillside-campus") startup = (Return d2, startup) /\
    leadership d1 = leadership d2 /\
    news d1 = news d2 /\
    gallery d1 = gallery d2 /\
    leadership d1 = g_DEMO_LEADERS startup /\
    news d1 = g_DEMO_NEWS startup /\
    gallery d1 = g_DEMO_GALLERY startup.
Proof.
  assert (H1 : lit "east-campus" ∈ map slug (g_LOCATIONS startup))
    by (apply known_slug_startup; vm_compute; reflexivity).
  assert (H2 : lit "hillside-campus" ∈ map slug (g_LOCATIONS startup))
    by (apply known_slug_startup; vm_compute; reflexivity).
  split; [exact H1|]. split; [exact H2|].
  exact (get_location_same_collections startup _ _ H1 H2).
Defined.

(** C7. [GET /api/location/central-campus] answers 200 with a detail
    whose location is named "Central Congregation", with 4 leaders and
    2 news items. *)
Theorem get_location_central_campus :
  exists d,
    get_location (lit "central-campus") startup = (Return d, startup) /\
    fst (serve http_exception_handler
           (get_location (lit "central-campus")) startup)
    = (200, Payload d) /\
    name (location d) = lit "Central Congregation" /\
    List.length (leadership d) = 4%nat /\
    List.length (news d) = 2%nat.
Proof.
  eexists. split; [vm_compute; reflexivity|].
  split; [vm_compute; reflexivity|].
  repeat split.
Qed.

(** ** The catalog as an invariant of the process *)

Lemma slugs_NoDup : NoDup (map slug LOCATIONS).
Proof.
  apply (bool_decide_unpack _). vm_compute. exact I.
Qed.

(** C8. Slugs are unique in the catalog (two records at different
    positions, or two different records, have different slugs), and
    the catalog is constant: no request, of any of the five routes,
    changes the state of the process. *)
Theorem catalog_unique_and_constant :
  NoDup (map slug LOCATIONS) /\
  (forall i j l1 l2,
     LOCATIONS !! i = Some l1 -> LOCATIONS !! j = Some l2 ->
     i <> j -> slug l1 <> slug l2) /\
  (forall l1 l2,
     l1 ∈ LOCATIONS -> l2 ∈ LOCATIONS -> l1 <> l2 -> slug l1 <> slug l2) /\
  (forall g rq, after g rq = g) /\
  (forall rqs, after_all rqs startup = startup) /\
  (forall rqs, g_LOCATIONS (after_all rqs startup) = LOCATIONS).
Proof.
  pose proof slugs_NoDup as ND.
  split; [exact ND|]. split; [|split; [|split; [|split]]].
  - intros i j l1 l2 Hi Hj Hne Heq. apply Hne.
    apply (NoDup_lookup (map slug LOCATIONS) i j (slug l1)); [exact ND| |].
    + rewrite list_lookup_fmap, Hi. reflexivity.
    + rewrite list_lookup_fmap, Hj. simpl. now rewrite Heq.
  - intros l1 l2 H1 H2 Hne Heq.
    apply list_elem_of_lookup in H1 as [i Hi].
    apply list_elem_of_lookup in H2 as [j Hj].
    destruct (decide (i = j)) as [->|Hij]; [congruence|].
    apply Hij.
    apply (NoDup_lookup (map slug LOCATIONS) i j (slug l1)); [exact ND| |].
    + rewrite list_lookup_fmap, Hi. reflexivity.
    + rewrite list_lookup_fmap, Hj. simpl. now rewrite Heq.
  - apply after_same.
  - intros rqs. apply after_all_same.
  - intros rqs. now rewrite after_all_same.
Qed.

(** ** The diagnostic probe *)

Lemma test_database_run (env : Env) (g : Globals) :
  test_database env g
  = (match probe env response0 with
     | (Return _, r) => Return (env_report env r)
     | (Raise e, _) => Raise e
     end, g).
Proof.
  unfold test_database, with_local, bind at 1.
  destruct (probe env response0) as [[[]|e] r]; reflexivity.
Qed.

Lemma env_report_other (env : Env) (r : Response) (k : string) :
  k <> "database_url" -> k <> "database_name" ->
  env_report env r !! k = r !! k.
Proof.
  intros H1 H2. unfold env_report.
  rewrite lookup_insert_ne by congruence.
  now rewrite lookup_insert_ne by congruence.
Qed.

Lemma env_report_url (env : Env) (r : Response) :
  env_report env r !! "database_url"
  = Some (set_or_not env (lit "DATABASE_URL")).
Proof.
  unfold env_report.
  rewrite lookup_insert_ne by discriminate.
  apply lookup_insert_eq.
Qed.

Lemma env_report_name (env : Env) (r : Response) :
  env_report env r !! "database_name"
  = Some (set_or_not env (lit "DATABASE_NAME")).
Proof. unfold env_report. apply lookup_insert_eq. Qed.

(** Every shape of the collaborator: the import raises (one of the six
    classes), [db] is [None], or [db] is an object whose [name] and
    [list_collection_names] each give a value or raise. *)
Ltac import_cases i :=
  destruct i as [[[[nv|[[] nmsg]] [cols|[[] qmsg]]]|]|[[] imsg]].

Ltac step_probe :=
  cbn [probe try_except bind eval setitem modify ret get fst snd
       List.find import_db db_name list_collection_names hasattr
       isinstance_Exception isinstance_ImportError
       isinstance_AttributeError exc_class_of exc_str].

Ltac step_diagnosis :=
  cbn [diagnosis outer_except hasattr db_name list_collection_names
       isinstance_Exception isinstance_ImportError
       isinstance_AttributeError exc_class_of exc_str].

Ltac lookup_field :=
  rewrite env_report_other by discriminate;
  repeat first
    [ rewrite lookup_insert_eq; reflexivity
    | rewrite lookup_insert_ne by discriminate ];
  vm_compute; reflexivity.

Lemma test_database_diagnosis (env : Env) (g : Globals) :
  match diagnosis (import_db env) with
  | Return (s, cols) => exists r, answers env g r s cols
  | Raise e => test_database env g = (Raise e, g)
  end.
Proof.
  unfold answers. rewrite test_database_run.
  destruct env as [i environ]. cbn [import_db].
  import_cases i; step_diagnosis; step_probe;
    first
      [ reflexivity
      | eexists; split; [reflexivity|];
        split; [lookup_field|]; split; [lookup_field|];
        split; [apply env_report_url | apply env_report_name] ].
Qed.

Lemma test_database_returns (env : Env) (g : Globals) (r : Response) :
  fst (test_database env g) = Return r ->
  exists s cols,
    diagnosis (import_db env) = Return (s, cols) /\ answers env g r s cols.
Proof.
  intros H. pose proof (test_database_diagnosis env g) as D.
  destruct (diagnosis (import_db env)) as [[s cols]|e].
  - destruct D as (r' & D). exists s, cols. split; [reflexivity|].
    destruct D as (Hrun & D). rewrite Hrun in H. simpl in H.
    injection H as <-. split; assumption.
  - rewrite D in H. discriminate H.
Qed.

Lemma diagnosis_errors_only (env : Env) :
  errors_only env = true ->
  exists s cols, diagnosis (import_db env) = Return (s, cols).
Proof.
  unfold errors_only. destruct env as [i environ]. cbn [import_db].
  import_cases i;
    cbn [is_error andb db_name list_collection_names isinstance_Exception
         exc_class_of];
    intros H; try discriminate H; step_diagnosis; eauto.
Qed.

Lemma test_database_total (env : Env) (g : Globals) :
  errors_only env = true -> exists r, test_database env g = (Return r, g).
Proof.
  intros Herr.
  destruct (diagnosis_errors_only env Herr) as (s & cols & Hd).
  pose proof (test_database_diagnosis env g) as D. rewrite Hd in D.
  destruct D as (r & Hrun & _). now exists r.
Qed.

Ltac literal_length :=
  repeat match goal with
  | |- context [List.length (lit ?x)] =>
    let n := eval vm_compute in (List.length (lit x)) in
    change (List.length (lit x)) with n
  end.

Lemma Return_pair_inv {E A B} (a a' : A) (b b' : B) :
  @Return E (A * B) (a, b) = Return (a', b') -> a = a' /\ b = b'.
Proof. intros H. injection H. auto. Qed.

Lemma Some_inv {A} (a a' : A) : Some a = Some a' -> a = a'.
Proof. intros H. injection H. auto. Qed.

(** Literals stay folded: the equation is split by the lemmas above. *)
Ltac from_return H :=
  first
    [ discriminate H
    | destruct (Return_pair_inv _ _ _ _ H) as [<- <-]
    | destruct (Some_inv _ _ H) as [] ].

Lemma outer_except_length (e : exception) (s : Py.str) :
  outer_except e = Some s -> (List.length s <= 59)%nat.
Proof.
  unfold outer_except, slice_to.
  destruct (isinstance_ImportError e); [|destruct (isinstance_Exception e)];
    intros H; from_return H.
  - vm_compute. lia.
  - rewrite length_app, length_take. literal_length. lia.
Qed.

Lemma diagnosis_length i (s : Py.str) (cols : list Py.str) :
  diagnosis i = Return (s, cols) ->
  (List.length s <= 75)%nat /\ (List.length cols <= 10)%nat.
Proof.
  unfold diagnosis, slice_to.
  destruct i as [[db|]|e].
  - destruct (hasattr (db_name db)) as [b|e].
    + destruct (list_collection_names db) as [names|e].
      * intros H. from_return H. split.
        -- literal_length. lia.
        -- rewrite length_take. lia.
      * destruct (isinstance_Exception e); intros H; from_return H.
        split; [|simpl; lia].
        rewrite length_app, length_take. literal_length. lia.
    + destruct (outer_except e) as [s'|] eqn:E; intros H; from_return H.
      apply outer_except_length in E. split; [|simpl]; lia.
  - intros H. from_return H. split; [literal_length|simpl]; lia.
  - destruct (outer_except e) as [s'|] eqn:E; intros H; from_return H.
    apply outer_except_length in E. split; [|simpl]; lia.
Qed.




(** C6. In every response of the probe the ["collections"] entry is a
    list of at most 10 names: the first ten of those a live connection
    enumerates, however many there are. *)
Theorem test_database_collections_at_most_10
    (env : Env) (g : Globals) (r : Response) :
  fst (test_database env g) = Return r ->
  exists l,
    r !! "collections" = Some (VList l) /\
    (List.length l <= 10)%nat /\
    (forall db b names, import_db env = Return (Some db) ->
       hasattr (db_name db) = Return b ->
       list_collection_names db = Return names ->
       l = slice_to 10 names /\ l `prefix_of` names).
Proof.
  intros H.
  destruct (test_database_returns env g r H) as (s & cols & Hd & A).
  destruct A as (_ & _ & Hcols & _). exists cols.
  split; [exact Hcols|]. split; [exact (proj2 (diagnosis_length _ _ _ Hd))|].
  intros db b names Hi Hn Hq. unfold diagnosis in Hd.
  rewrite Hi, Hn, Hq in Hd. from_return Hd.
  split; [reflexivity | apply prefix_take].
Qed.

Lemma test_database_collections_at_most_10_witness :
  exists r l,
    fst (test_database env_live startup) = Return r /\
    r !! "collections" = Some (VList l) /\
    List.length l = 10%nat /\
    List.length
      (match list_collection_names db_live with
       | Return names => names
       | Raise _ => []
       end) = 12%nat.
Proof.
  destruct (test_database_total env_live startup eq_refl) as (r & Hrun).
  assert (H : fst (test_database env_live startup) = Return r)
    by now rewrite Hrun.
  destruct (test_database_collections_at_most_10 env_live startup r H)
    as (l & Hl & Hlen & Hlive).
  exists r, l. split; [exact H|]. split; [exact Hl|].
  destruct (Hlive db_live true _ eq_refl eq_refl eq_refl) as [-> _].
  split; reflexivity.
Defined.

(** ** The environment entries of the probe *)

Lemma truthy_opt_set (env : Env) (k : Py.str) :
  truthy_opt (getenv env k) = true <-> set_nonempty env k.
Proof.
  unfold truthy_opt, getenv, set_nonempty, truthy.
  destruct (environ env !! k) as [[|c s]|]; split; intros H;
    try discriminate H; try reflexivity.
  - destruct H as (s & [= <-] & Hs). now destruct Hs.
  - exists (c :: s). split; [reflexivity | discriminate].
  - destruct H as (s & [=] & _).
Qed.

Lemma Set_not_NotSet : VStr (lit "✅ Set") <> VStr (lit "❌ Not Set").
Proof. intros H. vm_compute in H. discriminate H. Qed.

Lemma set_or_not_cases (env : Env) (k : Py.str) :
  set_or_not env k = VStr (lit "✅ Set") /\ set_nonempty env k \/
  set_or_not env k = VStr (lit "❌ Not Set") /\ ~ set_nonempty env k.
Proof.
  unfold set_or_not. pose proof (truthy_opt_set env k) as T.
  destruct (truthy_opt (getenv env k)).
  - left. split; [reflexivity | now apply T].
  - right. split; [reflexivity|]. intros H. apply T in H. discriminate H.
Qed.

Lemma set_or_not_same (env env' : Env) (k : Py.str) :
  (set_nonempty env k <-> set_nonempty env' k) ->
  set_or_not env k = set_or_not env' k.
Proof.
  intros H.
  destruct (set_or_not_cases env k) as [[-> A]|[-> A]],
           (set_or_not_cases env' k) as [[-> B]|[-> B]];
    try reflexivity; exfalso; tauto.
Qed.

Lemma set_or_not_is (env : Env) (k : Py.str) (v : Py.value) :
  v <> VStr (lit "✅ Set") -> v <> VStr (lit "❌ Not Set") ->
  Some (set_or_not env k) <> Some v.
Proof.
  intros H1 H2 H. apply Some_inv in H.
  destruct (set_or_not_cases env k) as [[E _]|[E _]]; congruence.
Qed.

(** C9, as stated, fails: with [DATABASE_URL] present in the
    environment in both cases, once empty and once not, the
    ["database_url"] entries differ; the empty one reads "Not Set". *)
Lemma database_url_presence_counterexample :
  is_Some (getenv env_url_empty (lit "DATABASE_URL")) /\
  is_Some (getenv env_url_given (lit "DATABASE_URL")) /\
  exists r1 r2,
    test_database env_url_empty startup = (Return r1, startup) /\
    test_database env_url_given startup = (Return r2, startup) /\
    r1 !! "database_url" = Some (VStr (lit "❌ Not Set")) /\
    r2 !! "database_url" = Some (VStr (lit "✅ Set")) /\
    r1 !! "database_url" <> r2 !! "database_url".
Proof.
  split; [vm_compute; eauto|]. split; [vm_compute; eauto|].
  destruct (test_database_total env_url_empty startup eq_refl) as (r1 & H1).
  destruct (test_database_total env_url_given startup eq_refl) as (r2 & H2).
  exists r1, r2. split; [exact H1|]. split; [exact H2|].
  rewrite test_database_run in H1, H2.
  destruct (probe env_url_empty response0) as [[[]|?] m1]; [|discriminate H1].
  destruct (probe env_url_given response0) as [[[]|?] m2]; [|discriminate H2].
  injection H1 as <-. injection H2 as <-.
  rewrite !env_report_url.
  assert (E1 : set_or_not env_url_empty (lit "DATABASE_URL")
               = VStr (lit "❌ Not Set")) by (vm_compute; reflexivity).
  assert (E2 : set_or_not env_url_given (lit "DATABASE_URL")
               = VStr (lit "✅ Set")) by (vm_compute; reflexivity).
  rewrite E1, E2. repeat split.
  intros H. apply Some_inv in H. symmetry in H. now apply Set_not_NotSet in H.
Qed.

(** C9, amended. In every response of the probe, ["database_url"] and
    ["database_name"] are "Set" or "Not Set", and which one depends
    only on whether [DATABASE_URL] and [DATABASE_NAME] are in the
    environment with a non-empty value; the values assigned on the way
    when a handle is found ("Configured", [db.name], "Connected") are
    overwritten and are not in the dict returned. *)
Theorem test_database_environment_entries
    (env : Env) (g : Globals) (r : Response) :
  fst (test_database env g) = Return r ->
  (r !! "database_url" = Some (VStr (lit "✅ Set")) /\
   set_nonempty env (lit "DATABASE_URL") \/
   r !! "database_url" = Some (VStr (lit "❌ Not Set")) /\
   ~ set_nonempty env (lit "DATABASE_URL")) /\
  (r !! "database_name" = Some (VStr (lit "✅ Set")) /\
   set_nonempty env (lit "DATABASE_NAME") \/
   r !! "database_name" = Some (VStr (lit "❌ Not Set")) /\
   ~ set_nonempty env (lit "DATABASE_NAME")) /\
  (forall env' g' r', fst (test_database env' g') = Return r' ->
     (set_nonempty env (lit "DATABASE_URL")
      <-> set_nonempty env' (lit "DATABASE_URL")) ->
     r !! "database_url" = r' !! "database_url") /\
  (forall env' g' r', fst (test_database env' g') = Return r' ->
     (set_nonempty env (lit "DATABASE_NAME")
      <-> set_nonempty env' (lit "DATABASE_NAME")) ->
     r !! "database_name" = r' !! "database_name") /\
  r !! "database_url" <> Some (VStr (lit "✅ Configured")) /\
  r !! "database_name" <> Some (VStr (lit "✅ Connected")) /\
  (forall db v, import_db env = Return (Some db) ->
     db_name db = Return v ->
     v <> VStr (lit "✅ Set") -> v <> VStr (lit "❌ Not Set") ->
     r !! "database_name" <> Some v).
Proof.
  intros H.
  destruct (test_database_returns env g r H) as (s & cols & _ & A).
  destruct A as (_ & _ & _ & Hurl & Hname).
  rewrite Hurl, Hname.
  split; [|split; [|split; [|split; [|split; [|split]]]]].
  - destruct (set_or_not_cases env (lit "DATABASE_URL")) as [[-> ?]|[-> ?]];
      auto.
  - destruct (set_or_not_cases env (lit "DATABASE_NAME")) as [[-> ?]|[-> ?]];
      auto.
  - intros env' g' r' H' Hiff.
    destruct (test_database_returns env' g' r' H') as (s' & cols' & _ & A').
    destruct A' as (_ & _ & _ & -> & _).
    now rewrite (set_or_not_same env env' _ Hiff).
  - intros env' g' r' H' Hiff.
    destruct (test_database_returns env' g' r' H') as (s' & cols' & _ & A').
    destruct A' as (_ & _ & _ & _ & ->).
    now rewrite (set_or_not_same env env' _ Hiff).
  - apply set_or_not_is; intros E; vm_compute in E; discriminate E.
  - apply set_or_not_is; intros E; vm_compute in E; discriminate E.
  - intros db v _ _ H1 H2. now apply set_or_not_is.
Qed.

Lemma test_database_environment_entries_witness :
  exists r,
    fst (test_database env_live startup) = Return r /\
    r !! "database_url" = Some (VStr (lit "✅ Set")) /\
    r !! "database_name" = Some (VStr (lit "❌ Not Set")) /\
    r !! "database_name" <> Some (VStr (lit "pastorate")).
Proof.
  destruct (test_database_total env_live startup eq_refl) as (r & Hrun).
  assert (H : fst (test_database env_live startup) = Return r)
    by now rewrite Hrun.
  destruct (test_database_environment_entries env_live startup r H)
    as (Hurl & Hname & _ & _ & _ & _ & Hdb).
  exists r. split; [exact H|].
  assert (U : set_nonempty env_live (lit "DATABASE_URL")).
  { exists (lit "mongodb://localhost:27017").
    split; [vm_compute; reflexivity|]. intros E. vm_compute in E.
    discriminate E. }
  assert (N : ~ set_nonempty env_live (lit "DATABASE_NAME")).
  { intros (s & Hs & _). vm_compute in Hs. discriminate Hs. }
  split; [|split].
  - destruct Hurl as [[E _]|[_ E]]; [exact E | contradiction].
  - destruct Hname as [[_ E]|[E _]]; [contradiction | exact E].
  - apply (Hdb db_live); try reflexivity;
      intros E; vm_compute in E; discriminate E.
Defined.

(** ** The text of an exception in the response *)

(** C10. When the probe reports an exception under ["database"], after
    "Connected but Error: " (the query raised) or "Error: " (the import
    or the read of [db.name] raised), what follows is the first 50
    characters of the exception's text, so that the entry is at most 75
    characters long whatever the message. *)
Theorem test_database_error_text_truncated
    (env : Env) (g : Globals) (r : Response) :
  fst (test_database env g) = Return r ->
  (forall db b e, import_db env = Return (Some db) ->
     hasattr (db_name db) = Return b ->
     list_collection_names db = Raise e ->
     r !! "database"
     = Some (VStr (lit "⚠️  Connected but Error: "
                   ++ slice_to 50 (exc_str e)))) /\
  (forall e, import_db env = Raise e ->
     isinstance_ImportError e = false ->
     r !! "database"
     = Some (VStr (lit "❌ Error: " ++ slice_to 50 (exc_str e)))) /\
  (forall db e, import_db env = Return (Some db) ->
     hasattr (db_name db) = Raise e ->
     isinstance_ImportError e = false ->
     r !! "database"
     = Some (VStr (lit "❌ Error: " ++ slice_to 50 (exc_str e)))) /\
  (forall e : exception,
     (List.length (slice_to 50 (exc_str e)) <= 50)%nat /\
     slice_to 50 (exc_str e) `prefix_of` exc_str e) /\
  exists s, r !! "database" = Some (VStr s) /\ (List.length s <= 75)%nat.
Proof.
  intros H.
  destruct (test_database_returns env g r H) as (s & cols & Hd & A).
  destruct A as (_ & Hdb & _). rewrite Hdb.
  split; [|split; [|split; [|split]]].
  - intros db b e Hi Hn Hq. unfold diagnosis in Hd.
    rewrite Hi, Hn, Hq in Hd.
    destruct (isinstance_Exception e); now from_return Hd.
  - intros e Hi He. unfold diagnosis, outer_except in Hd.
    rewrite Hi, He in Hd.
    destruct (isinstance_Exception e); now from_return Hd.
  - intros db e Hi Hn He. unfold diagnosis, outer_except in Hd.
    rewrite Hi, Hn, He in Hd.
    destruct (isinstance_Exception e); now from_return Hd.
  - intros e. unfold slice_to. split; [|apply prefix_take].
    rewrite length_take. lia.
  - exists s. split; [reflexivity|].
    exact (proj1 (diagnosis_length _ _ _ Hd)).
Qed.

Lemma test_database_error_text_truncated_witness :
  exists r,
    fst (test_database env_failing startup) = Return r /\
    List.length (exc_str refused) = 68%nat /\
    r !! "database"
    = Some (VStr (lit "⚠️  Connected but Error: localhost:27017: [Errno 111] Connection refused, T")).
Proof.
  destruct (test_database_total env_failing startup eq_refl) as (r & Hrun).
  assert (H : fst (test_database env_failing startup) = Return r)
    by now rewrite Hrun.
  destruct (test_database_error_text_truncated env_failing startup r H)
    as (Hq & _).
  exists r. split; [exact H|]. split; [reflexivity|].
  rewrite (Hq db_failing true refused eq_refl eq_refl eq_refl).
  vm_compute. reflexivity.
Defined.

(** * Further properties of the handlers *)

(** ** The keys of the response *)

Lemma Return_inv {E A} (a a' : A) : @Return E A a = Return a' -> a = a'.
Proof. intros H. injection H. auto. Qed.

Lemma VStr_inv (a a' : Py.str) : VStr a = VStr a' -> a = a'.
Proof. intros H. injection H. auto. Qed.

Lemma keeps_ret {A} (a : A) : keeps_keys (ret a).
Proof. intros s H. exact H. Qed.

Lemma keeps_eval {A} (o : outcome exception A) : keeps_keys (eval o).
Proof. intros s H. exact H. Qed.

Lemma keeps_setitem (k : string) (v : Py.value) :
  k ∈ response_keys -> keeps_keys (setitem k v).
Proof.
  intros Hk s H. unfold setitem, modify. cbn [snd].
  rewrite dom_insert_L, H. apply subseteq_union_1_L.
  now apply singleton_subseteq_l.
Qed.

Lemma keeps_bind {A B} (m : M Response exception A)
    (k : A -> M Response exception B) :
  keeps_keys m -> (forall a, keeps_keys (k a)) -> keeps_keys (bind m k).
Proof.
  intros Hm Hk s H. unfold bind. specialize (Hm s H).
  destruct (m s) as [[a|e] s']; cbn [snd] in *.
  - now apply Hk.
  - exact Hm.
Qed.

Lemma keeps_try_except {A} (body : M Response exception A)
    (clauses : list ((exception -> bool)
                     * (exception -> M Response exception A))) :
  keeps_keys body ->
  Forall (fun c => forall e, keeps_keys (snd c e)) clauses ->
  keeps_keys (try_except body clauses).
Proof.
  intros Hb Hc s H. unfold try_except. specialize (Hb s H).
  destruct (body s) as [[a|e] s']; cbn [snd] in *; [exact Hb|].
  destruct (List.find (fun c => fst c e) clauses) as [c|] eqn:F;
    cbn [snd]; [|exact Hb].
  apply find_some in F as [Hin _].
  rewrite List.Forall_forall in Hc. now apply (Hc c Hin e).
Qed.

Ltac key_in := unfold response_keys; set_solver.

(** The invariant follows the syntax of the computation. *)
Ltac keeps :=
  lazymatch goal with
  | |- keeps_keys (bind _ _) =>
    apply keeps_bind; [keeps | intros ?; keeps]
  | |- keeps_keys (setitem _ _) => apply keeps_setitem; key_in
  | |- keeps_keys (eval _) => apply keeps_eval
  | |- keeps_keys (ret _) => apply keeps_ret
  | |- keeps_keys (try_except _ _) =>
    apply keeps_try_except;
    [ keeps
    | repeat (constructor; [intros ?; cbn [snd]; keeps|]); constructor ]
  | |- keeps_keys (match ?x with _ => _ end) => destruct x; keeps
  end.

Lemma probe_keeps_keys (env : Env) : keeps_keys (probe env).
Proof. unfold probe. keeps. Qed.

Lemma dom_response0 : dom response0 = response_keys.
Proof. vm_compute. reflexivity. Qed.

Lemma test_database_keys (env : Env) (g : Globals) (r : Response) :
  fst (test_database env g) = Return r -> dom r = response_keys.
Proof.
  rewrite test_database_run. cbn [fst].
  pose proof (probe_keeps_keys env response0 dom_response0) as K.
  destruct (probe env response0) as [[[]|e] m]; intros H;
    [|discriminate H].
  apply Return_inv in H. subst r. cbn [snd] in K.
  unfold env_report. rewrite !dom_insert_L, K. key_in.
Qed.

(** ** The other entries of the response *)

Lemma test_database_status (env : Env) (g : Globals) (r : Response) :
  fst (test_database env g) = Return r ->
  r !! "backend" = Some (VStr (lit "✅ Running")) /\
  r !! "connection_status"
  = Some (VStr (if connected (import_db env) then lit "Connected"
                else lit "Not Connected")).
Proof.
  rewrite test_database_run. cbn [fst].
  destruct env as [i environ]. cbn [import_db].
  import_cases i;
    cbn [connected hasattr db_name isinstance_AttributeError exc_class_of];
    step_probe; intros H; try discriminate H;
    apply Return_inv in H; subst r; split; lookup_field.
Qed.

Lemma connected_iff (i : outcome exception (option Database)) :
  connected i = true <->
  exists db b, i = Return (Some db) /\ hasattr (db_name db) = Return b.
Proof.
  unfold connected. destruct i as [[db|]|e].
  - destruct (hasattr (db_name db)) as [b|e] eqn:Hh; split.
    + intros _. now exists db, b.
    + reflexivity.
    + discriminate.
    + intros (db' & b & [= <-] & H). congruence.
  - split; [discriminate|]. intros (db & b & [=] & _).
  - split; [discriminate|]. intros (db & b & [=] & _).
Qed.

Lemma Connected_not_NotConnected : lit "Connected" <> lit "Not Connected".
Proof. intros H. vm_compute in H. discriminate H. Qed.

(** X3. Every response of the probe has exactly the six keys of the
    dict literal, and its ["backend"] entry is "Running": no path adds
    or drops a key or touches that entry. *)
Theorem test_database_shape (env : Env) (g : Globals) (r : Response) :
  fst (test_database env g) = Return r ->
  dom r = response_keys /\
  (forall k, is_Some (r !! k) <-> k ∈ response_keys) /\
  r !! "backend" = Some (VStr (lit "✅ Running")).
Proof.
  intros H. pose proof (test_database_keys env g r H) as K.
  split; [exact K|]. split.
  - intros k. rewrite <- K. symmetry. apply elem_of_dom.
  - exact (proj1 (test_database_status env g r H)).
Qed.

Lemma test_database_shape_witness :
  exists r,
    fst (test_database env_failing startup) = Return r /\
    dom r = response_keys /\
    r !! "backend" = Some (VStr (lit "✅ Running")).
Proof.
  destruct (test_database_total env_failing startup eq_refl) as (r & Hrun).
  assert (H : fst (test_database env_failing startup) = Return r)
    by now rewrite Hrun.
  destruct (test_database_shape env_failing startup r H) as (K & _ & B).
  exists r. split; [exact H|]. split; [exact K | exact B].
Defined.

(** X4. ["connection_status"] is "Connected" or "Not Connected", and it
    is "Connected" exactly when the import gave a handle that is not
    [None] and [hasattr(db, 'name')] gave an answer: also when the
    query then fails. *)
Theorem test_database_connection_status
    (env : Env) (g : Globals) (r : Response) :
  fst (test_database env g) = Return r ->
  (r !! "connection_status" = Some (VStr (lit "Connected")) \/
   r !! "connection_status" = Some (VStr (lit "Not Connected"))) /\
  (r !! "connection_status" = Some (VStr (lit "Connected")) <->
   exists db b,
     import_db env = Return (Some db) /\
     hasattr (db_name db) = Return b) /\
  (forall db b e, import_db env = Return (Some db) ->
     hasattr (db_name db) = Return b ->
     list_collection_names db = Raise e ->
     r !! "connection_status" = Some (VStr (lit "Connected"))).
Proof.
  intros H. destruct (test_database_status env g r H) as [_ Hc].
  rewrite Hc. pose proof (connected_iff (import_db env)) as C.
  destruct (connected (import_db env)).
  - split; [now left|]. split.
    + split; [intros _; now apply C | reflexivity].
    + reflexivity.
  - split; [now right|]. split.
    + split.
      * intros E. apply Some_inv, VStr_inv in E. symmetry in E.
        now apply Connected_not_NotConnected in E.
      * intros E. apply C in E. discriminate E.
    + intros db b e Hi Hn _.
      assert (E : false = true) by (apply C; eauto). discriminate E.
Qed.

Lemma test_database_connection_status_witness :
  exists r,
    fst (test_database env_failing startup) = Return r /\
    r !! "connection_status" = Some (VStr (lit "Connected")).
Proof.
  destruct (test_database_total env_failing startup eq_refl) as (r & Hrun).
  assert (H : fst (test_database env_failing startup) = Return r)
    by now rewrite Hrun.
  destruct (test_database_connection_status env_failing startup r H)
    as (_ & _ & Hq).
  exists r. split; [exact H|].
  exact (Hq db_failing true refused eq_refl eq_refl eq_refl).
Defined.

(** ** Lookup in a catalog with or without repeated slugs *)

Lemma first_match_split (pre post : list Location) (l : Location) :
  slug l ∉ map slug pre ->
  first_match (slug l) (pre ++ l :: post) = Some l.
Proof.
  unfold first_match, Py.eqb.
  induction pre as [|p pre IH]; intros Hn; simpl.
  - now rewrite bool_decide_eq_true_2.
  - rewrite bool_decide_eq_false_2.
    + apply IH. intros Hin. apply Hn. simpl. apply elem_of_cons. now right.
    + intros E. apply Hn. simpl. apply elem_of_cons. left. now symmetry.
Qed.

Lemma get_location_split (g : Globals) (pre post : list Location)
    (l : Location) :
  g_LOCATIONS g = pre ++ l :: post ->
  slug l ∉ map slug pre ->
  get_location (slug l) g
  = (Return (mkLocationDetail l (g_DEMO_LEADERS g) (g_DEMO_NEWS g)
               (g_DEMO_GALLERY g)), g).
Proof.
  intros Hs Hn. unfold get_location, bind, get, ret.
  now rewrite Hs, (first_match_split pre post l Hn).
Qed.

(** X1. When several records of the catalog share a slug,
    [get_location] serves the first of them in list order: the later
    ones cannot be reached. *)
Theorem get_location_first_of_duplicates
    (g : Globals) (pre post : list Location) (l : Location) :
  g_LOCATIONS g = pre ++ l :: post ->
  slug l ∉ map slug pre ->
  exists d,
    get_location (slug l) g = (Return d, g) /\
    location d = l /\
    (forall l', l' ∈ post -> l' <> l -> location d <> l').
Proof.
  intros Hs Hn. eexists. split; [exact (get_location_split g _ _ l Hs Hn)|].
  simpl. split; [reflexivity|]. intros l' _ Hne E. now apply Hne.
Qed.

Lemma get_location_first_of_duplicates_witness :
  slug first_north = slug second_north /\
  exists d,
    get_location (lit "north-campus") g_shadowed = (Return d, g_shadowed) /\
    name (location d) = lit "North Congregation".
Proof.
  split; [reflexivity|].
  assert (Hn : slug first_north ∉ map slug []) by (intros H; inversion H).
  destruct (get_location_first_of_duplicates g_shadowed [] [second_north]
              first_north eq_refl Hn) as (d & Hrun & Hd & _).
  exists d. split; [exact Hrun|]. now rewrite Hd.
Defined.

(** X2. With pairwise different slugs, every record that
    [list_locations] returns is served back by [get_location] on its
    slug: the detail carries that very record. *)
Theorem listed_location_is_served (g : Globals) (ls : list Location)
    (l : Location) :
  NoDup (map slug (g_LOCATIONS g)) ->
  fst (list_locations g) = Return ls ->
  l ∈ ls ->
  get_location (slug l) g
  = (Return (mkLocationDetail l (g_DEMO_LEADERS g) (g_DEMO_NEWS g)
               (g_DEMO_GALLERY g)), g).
Proof.
  intros ND Hl Hin. rewrite list_locations_run in Hl. cbn [fst] in Hl.
  apply Return_inv in Hl. subst ls.
  apply list_elem_of_split in Hin as (pre & post & Hs).
  apply (get_location_split g pre post l Hs).
  rewrite Hs, fmap_app, fmap_cons in ND.
  apply NoDup_app in ND as (_ & Hdis & _).
  intros Hpre. apply (Hdis _ Hpre). apply elem_of_cons. now left.
Qed.

Lemma listed_location_is_served_witness :
  exists l,
    LOCATIONS !! 4%nat = Some l /\
    slug l = lit "west-campus" /\
    get_location (slug l) startup
    = (Return (mkLocationDetail l DEMO_LEADERS DEMO_NEWS DEMO_GALLERY),
       startup).
Proof.
  eexists. split; [reflexivity|]. split; [reflexivity|].
  apply (listed_location_is_served startup LOCATIONS _ slugs_NoDup eq_refl).
  apply (list_elem_of_lookup_2 _ 4%nat). reflexivity.
Defined.

(** ** Which exceptions leave the probe *)

Lemma Raise_inv {E A} (e e' : E) : @Raise E A e = Raise e' -> e = e'.
Proof. intros H. injection H. auto. Qed.

Lemma outer_except_None (e : exception) :
  outer_except e = None <-> isinstance_Exception e = false.
Proof.
  unfold outer_except, isinstance_ImportError, isinstance_Exception.
  destruct e as [[] m]; cbn [exc_class_of]; split; intros H;
    first [reflexivity | discriminate H].
Qed.

Lemma ImportError_is_Exception (e : exception) :
  isinstance_ImportError e = true -> isinstance_Exception e = true.
Proof.
  unfold isinstance_ImportError, isinstance_Exception.
  now destruct (exc_class_of e).
Qed.

Lemma diagnosis_raise_iff (i : outcome exception (option Database))
    (e : exception) :
  diagnosis i = Raise e <->
  isinstance_Exception e = false /\
  (i = Raise e \/
   exists db, i = Return (Some db) /\
     (hasattr (db_name db) = Raise e \/
      (exists b, hasattr (db_name db) = Return b) /\
      list_collection_names db = Raise e)).
Proof.
  unfold diagnosis. destruct i as [[db|]|e0].
  - destruct (hasattr (db_name db)) as [b|e1] eqn:Hh.
    + destruct (list_collection_names db) as [names|e2] eqn:Hq.
      * split; [intros H; discriminate H|].
        intros (_ & [H|(db' & H & [H1|(_ & H2)])]); [discriminate H| |];
          apply Return_inv, Some_inv in H; subst db'; congruence.
      * destruct (isinstance_Exception e2) eqn:Hx.
        -- split; [intros H; discriminate H|].
           intros (Hx' & [H|(db' & H & [H1|(_ & H2)])]); [discriminate H| |];
             apply Return_inv, Some_inv in H; subst db'; congruence.
        -- split.
           ++ intros H. apply Raise_inv in H. subst e2.
              split; [exact Hx|]. right. exists db. split; [reflexivity|].
              right. split; [now exists b | exact Hq].
           ++ intros (_ & [H|(db' & H & [H1|(_ & H2)])]); [discriminate H| |];
                apply Return_inv, Some_inv in H; subst db'; congruence.
    + destruct (outer_except e1) as [s|] eqn:Ho.
      * split; [intros H; discriminate H|].
        intros (Hx & [H|(db' & H & [H1|((b & Hb) & _)])]); [discriminate H| |];
          apply Return_inv, Some_inv in H; subst db'; [|congruence].
        rewrite Hh in H1. apply Raise_inv in H1. subst e1.
        apply outer_except_None in Hx. congruence.
      * split.
        -- intros H. apply Raise_inv in H. subst e1.
           split; [now apply outer_except_None|]. right. exists db.
           split; [reflexivity|]. now left.
        -- intros (_ & [H|(db' & H & [H1|((b & Hb) & _)])]); [discriminate H| |];
             apply Return_inv, Some_inv in H; subst db'; congruence.
  - split; [intros H; discriminate H|].
    intros (_ & [H|(db & H & _)]); discriminate H.
  - destruct (outer_except e0) as [s|] eqn:Ho.
    + split; [intros H; discriminate H|].
      intros (Hx & [H|(db & H & _)]); [|discriminate H].
      apply Raise_inv in H. subst e0.
      apply outer_except_None in Hx. congruence.
    + split.
      * intros H. apply Raise_inv in H. subst e0.
        split; [now apply outer_except_None | now left].
      * intros (_ & [H|(db & H & _)]); [|discriminate H].
        apply Raise_inv in H. now subst e0.
Qed.

(** X5. An exception leaves [test_database] exactly when it is not an
    instance of [Exception] (as [SystemExit] or [KeyboardInterrupt])
    and was raised by the import, by [hasattr(db, 'name')] or by the
    query; it is then the caller's, unchanged, and no dict is
    returned. *)
Theorem test_database_raises_iff (env : Env) (g : Globals) (e : exception) :
  fst (test_database env g) = Raise e <->
  isinstance_Exception e = false /\
  (import_db env = Raise e \/
   exists db, import_db env = Return (Some db) /\
     (hasattr (db_name db) = Raise e \/
      (exists b, hasattr (db_name db) = Return b) /\
      list_collection_names db = Raise e)).
Proof.
  rewrite <- diagnosis_raise_iff.
  pose proof (test_database_diagnosis env g) as D.
  destruct (diagnosis (import_db env)) as [[s cols]|e'].
  - destruct D as (r & Hrun & _). rewrite Hrun. cbn [fst].
    split; intros H; discriminate H.
  - rewrite D. cbn [fst].
    split; intros H; apply Raise_inv in H; now subst.
Qed.

Lemma test_database_raises_iff_witness :
  fst (test_database env_exit startup)
  = Raise (mkException SystemExit (lit "1")).
Proof.
  apply (test_database_raises_iff env_exit startup).
  split; [reflexivity|]. now left.
Defined.

(** ** The entries on each path *)

Ltac heads_differ :=
  let E := fresh "E" in
  intros E; apply (f_equal (take 1)) in E; vm_compute in E; discriminate E.

Lemma outer_except_not_working (e : exception) (s : Py.str) :
  outer_except e = Some s -> s <> lit "✅ Connected & Working".
Proof.
  unfold outer_except.
  destruct (isinstance_ImportError e); [|destruct (isinstance_Exception e)];
    intros H; from_return H; heads_differ.
Qed.

(** X6. ["database"] reads "Connected & Working" exactly when the
    import gave a handle, [hasattr(db, 'name')] gave an answer and the
    query returned: no failing path reports success. *)
Theorem test_database_working_iff (env : Env) (g : Globals) (r : Response) :
  fst (test_database env g) = Return r ->
  (r !! "database" = Some (VStr (lit "✅ Connected & Working")) <->
   exists db b names,
     import_db env = Return (Some db) /\
     hasattr (db_name db) = Return b /\
     list_collection_names db = Return names).
Proof.
  intros H.
  destruct (test_database_returns env g r H) as (s0 & cols0 & Hd & A).
  destruct A as (_ & Hdb & _). rewrite Hdb. clear Hdb H.
  unfold diagnosis in Hd.
  assert (W : forall s, s <> lit "✅ Connected & Working" ->
              Some (VStr s) = Some (VStr (lit "✅ Connected & Working"))
              -> False).
  { intros s Hs E. apply Some_inv, VStr_inv in E. now apply Hs. }
  destruct (import_db env) as [[db|]|e0].
  - destruct (hasattr (db_name db)) as [b|e1] eqn:Hh.
    + destruct (list_collection_names db) as [names|e2] eqn:Hq.
      * from_return Hd. split; [|reflexivity].
        intros _. now exists db, b, names.
      * destruct (isinstance_Exception e2); from_return Hd. split.
        -- intros E. exfalso. revert E. apply W. heads_differ.
        -- intros (db' & b' & names & Hi & _ & Hq').
           apply Return_inv, Some_inv in Hi. subst db'. congruence.
    + destruct (outer_except e1) as [s|] eqn:Ho; from_return Hd. split.
      * intros E. exfalso. revert E. apply W.
        now apply (outer_except_not_working e1).
      * intros (db' & b' & names & Hi & Hh' & _).
        apply Return_inv, Some_inv in Hi. subst db'. congruence.
  - from_return Hd. split.
    + intros E. exfalso. revert E. apply W. heads_differ.
    + intros (db & b & names & Hi & _). discriminate Hi.
  - destruct (outer_except e0) as [s|] eqn:Ho; from_return Hd. split.
    + intros E. exfalso. revert E. apply W.
      now apply (outer_except_not_working e0).
    + intros (db & b & names & Hi & _). discriminate Hi.
Qed.

Lemma test_database_working_iff_witness :
  exists r,
    fst (test_database env_live startup) = Return r /\
    r !! "database" = Some (VStr (lit "✅ Connected & Working")).
Proof.
  destruct (test_database_total env_live startup eq_refl) as (r & Hrun).
  assert (H : fst (test_database env_live startup) = Return r)
    by now rewrite Hrun.
  exists r. split; [exact H|].
  apply (test_database_working_iff env_live startup r H).
  exists db_live, true. eexists. repeat split.
Defined.

(** X7. ["collections"] holds all the names, in order, when the query
    returns at most ten, exactly ten when it returns more, and is empty
    on every path where the query did not return. *)
Theorem test_database_collections_exact
    (env : Env) (g : Globals) (r : Response) :
  fst (test_database env g) = Return r ->
  exists l,
    r !! "collections" = Some (VList l) /\
    (forall db b names, import_db env = Return (Some db) ->
       hasattr (db_name db) = Return b ->
       list_collection_names db = Return names ->
       ((List.length names <= 10)%nat -> l = names) /\
       ((10 <= List.length names)%nat -> List.length l = 10%nat)) /\
    (l <> [] ->
     exists db b names,
       import_db env = Return (Some db) /\
       hasattr (db_name db) = Return b /\
       list_collection_names db = Return names /\
       l = slice_to 10 names).
Proof.
  intros H.
  destruct (test_database_returns env g r H) as (s0 & cols0 & Hd & A).
  destruct A as (_ & _ & Hcols & _). exists cols0.
  split; [exact Hcols|]. clear Hcols H. unfold diagnosis in Hd.
  destruct (import_db env) as [[db|]|e0].
  - destruct (hasattr (db_name db)) as [b|e1] eqn:Hh.
    + destruct (list_collection_names db) as [names|e2] eqn:Hq.
      * from_return Hd. unfold slice_to. split.
        -- intros db' b' names' Hi _ Hq'.
           apply Return_inv, Some_inv in Hi. subst db'.
           rewrite Hq in Hq'. apply Return_inv in Hq'. subst names'.
           split; intros Hlen; [now apply take_ge|].
           rewrite length_take. lia.
        -- intros _. now exists db, b, names.
      * destruct (isinstance_Exception e2); from_return Hd. split.
        -- intros db' b' names' Hi _ Hq'.
           apply Return_inv, Some_inv in Hi. subst db'. congruence.
        -- intros Hne. now destruct Hne.
    + destruct (outer_except e1) as [s|] eqn:Ho; from_return Hd. split.
      * intros db' b' names' Hi Hh' _.
        apply Return_inv, Some_inv in Hi. subst db'. congruence.
      * intros Hne. now destruct Hne.
  - from_return Hd. split.
    + intros db b names Hi _ _. discriminate Hi.
    + intros Hne. now destruct Hne.
  - destruct (outer_except e0) as [s|] eqn:Ho; from_return Hd. split.
    + intros db b names Hi _ _. discriminate Hi.
    + intros Hne. now destruct Hne.
Qed.

Lemma test_database_collections_exact_witness :
  exists r,
    fst (test_database env_small startup) = Return r /\
    r !! "collections" = Some (VList [lit "locations"; lit "news"]).
Proof.
  destruct (test_database_total env_small startup eq_refl) as (r & Hrun).
  assert (H : fst (test_database env_small startup) = Return r)
    by now rewrite Hrun.
  destruct (test_database_collections_exact env_small startup r H)
    as (l & Hl & Hlive & _).
  exists r. split; [exact H|]. rewrite Hl.
  destruct (Hlive _ true _ eq_refl eq_refl eq_refl) as [Hall _].
  rewrite Hall; [reflexivity|]. simpl. lia.
Defined.

(** X8. An exception text of at most 50 characters is in the
    ["database"] entry whole, after "Connected but Error: " (query) or
    "Error: " (import). *)
Theorem test_database_short_error_text_whole
    (env : Env) (g : Globals) (r : Response) :
  fst (test_database env g) = Return r ->
  (forall db b e, import_db env = Return (Some db) ->
     hasattr (db_name db) = Return b ->
     list_collection_names db = Raise e ->
     (List.length (exc_str e) <= 50)%nat ->
     r !! "database"
     = Some (VStr (lit "⚠️  Connected but Error: " ++ exc_str e))) /\
  (forall e, import_db env = Raise e ->
     isinstance_ImportError e = false ->
     (List.length (exc_str e) <= 50)%nat ->
     r !! "database" = Some (VStr (lit "❌ Error: " ++ exc_str e))).
Proof.
  intros H.
  destruct (test_database_returns env g r H) as (s0 & cols0 & Hd & A).
  destruct A as (_ & Hdb & _). rewrite Hdb. clear Hdb H.
  unfold diagnosis, outer_except, slice_to in Hd. split.
  - intros db b e Hi Hn Hq Hlen. rewrite Hi, Hn, Hq in Hd.
    destruct (isinstance_Exception e); from_return Hd.
    now rewrite (take_ge _ _ Hlen).
  - intros e Hi He Hlen. rewrite Hi, He in Hd.
    destruct (isinstance_Exception e); from_return Hd.
    now rewrite (take_ge _ _ Hlen).
Qed.

Lemma test_database_short_error_text_whole_witness :
  exists r,
    fst (test_database env_import_fails startup) = Return r /\
    r !! "database" = Some (VStr (lit "❌ Error: connection refused")).
Proof.
  destruct (test_database_total env_import_fails startup eq_refl)
    as (r & Hrun).
  assert (H : fst (test_database env_import_fails startup) = Return r)
    by now rewrite Hrun.
  destruct (test_database_short_error_text_whole env_import_fails startup
              r H) as (_ & Hi).
  exists r. split; [exact H|].
  rewrite (Hi _ eq_refl eq_refl); [vm_compute; reflexivity|].
  vm_compute. lia.
Defined.

(** ** The collaborator and the environment do not mix *)

Lemma probe_import (env env' : Env) :
  import_db env = import_db env' -> probe env = probe env'.
Proof. unfold probe. intros H. now rewrite H. Qed.

(** X9. Two environments with the same [database] module and different
    variables get the same response but for ["database_url"] and
    ["database_name"]: the variables decide nothing else. *)
Theorem test_database_environ_only_in_its_entries
    (env env' : Env) (g g' : Globals) (r : Response) :
  import_db env = import_db env' ->
  fst (test_database env g) = Return r ->
  exists r',
    fst (test_database env' g') = Return r' /\
    (forall k, k <> "database_url" -> k <> "database_name" ->
       r' !! k = r !! k).
Proof.
  intros Hi. rewrite !test_database_run. cbn [fst].
  rewrite <- (probe_import env env' Hi).
  destruct (probe env response0) as [[[]|e] m]; intros H; [|discriminate H].
  apply Return_inv in H. subst r. eexists. split; [reflexivity|].
  intros k H1 H2. now rewrite !env_report_other.
Qed.

Lemma test_database_environ_only_in_its_entries_witness :
  exists r r',
    fst (test_database env_url_empty startup) = Return r /\
    fst (test_database env_url_given startup) = Return r' /\
    r' !! "database" = r !! "database" /\
    r' !! "collections" = r !! "collections".
Proof.
  destruct (test_database_total env_url_empty startup eq_refl) as (r & Hrun).
  assert (H : fst (test_database env_url_empty startup) = Return r)
    by now rewrite Hrun.
  destruct (test_database_environ_only_in_its_entries env_url_empty
              env_url_given startup startup r eq_refl H) as (r' & H' & Hk).
  exists r, r'. split; [exact H|]. split; [exact H'|].
  split; apply Hk; discriminate.
Defined.

(** ** Where an [ImportError] is raised decides how it is reported *)

(** X10. With the module imported and a handle at hand, an
    [ImportError] raised by [hasattr(db, 'name')] is taken by the outer
    [except ImportError]: the response says the database module was
    not found and is "Not Connected"; the same exception raised by the
    query is taken by the inner clause and reported as "Connected but
    Error". *)
Theorem test_database_import_error_inside
    (env : Env) (g : Globals) (db : Database) (e : exception) :
  import_db env = Return (Some db) ->
  isinstance_ImportError e = true ->
  (hasattr (db_name db) = Raise e ->
   exists r,
     test_database env g = (Return r, g) /\
     r !! "database"
     = Some (VStr (lit "❌ Database module not found (run enable-database first)")) /\
     r !! "connection_status" = Some (VStr (lit "Not Connected")) /\
     r !! "collections" = Some (VList [])) /\
  (forall b, hasattr (db_name db) = Return b ->
   list_collection_names db = Raise e ->
   exists r,
     test_database env g = (Return r, g) /\
     r !! "database"
     = Some (VStr (lit "⚠️  Connected but Error: "
                   ++ slice_to 50 (exc_str e))) /\
     r !! "connection_status" = Some (VStr (lit "Connected")) /\
     r !! "collections" = Some (VList [])).
Proof.
  intros Hi He. pose proof (ImportError_is_Exception e He) as Hx.
  pose proof (test_database_diagnosis env g) as D.
  split.
  - intros Hn. unfold diagnosis, outer_except in D.
    rewrite Hi, Hn, He in D. destruct D as (r & Hrun & Hdb & Hcols & _).
    exists r. split; [exact Hrun|]. split; [exact Hdb|].
    split; [|exact Hcols].
    assert (H : fst (test_database env g) = Return r) by now rewrite Hrun.
    destruct (test_database_status env g r H) as [_ Hc]. rewrite Hc.
    unfold connected. now rewrite Hi, Hn.
  - intros b Hn Hq. unfold diagnosis in D.
    rewrite Hi, Hn, Hq, Hx in D. destruct D as (r & Hrun & Hdb & Hcols & _).
    exists r. split; [exact Hrun|]. split; [exact Hdb|].
    split; [|exact Hcols].
    assert (H : fst (test_database env g) = Return r) by now rewrite Hrun.
    destruct (test_database_status env g r H) as [_ Hc]. rewrite Hc.
    unfold connected. now rewrite Hi, Hn.
Qed.

Lemma test_database_import_error_inside_witness :
  exists r,
    test_database env_name_unreadable startup = (Return r, startup) /\
    r !! "database"
    = Some (VStr (lit "❌ Database module not found (run enable-database first)")) /\
    r !! "connection_status" = Some (VStr (lit "Not Connected")).
Proof.
  destruct (test_database_import_error_inside env_name_unreadable startup
              _ driver_missing eq_refl eq_refl) as (Hname & _).
  destruct (Hname eq_refl) as (r & Hrun & Hdb & Hc & _).
  exists r. split; [exact Hrun|]. split; [exact Hdb | exact Hc].
Defined.
